(** * kisaan_fast_api: a shallow embedding of [main.py]

    The development follows the layout of [main.py]: the helper functions
    ([serialize_firestore_document], [hash_password], [verify_password],
    [haversine]) and then the route handlers ([get_product_by_id],
    [find_users], [find_users_by_location], [get_all_products],
    [get_products_by_location], [create_product], [delete_product],
    [register_user]).  Each function is modelled as it runs when it is
    called; loading the module, routing and the validation of request
    bodies are not modelled.

    Modelling conventions.
    - A Python [dict] is an association list in insertion order; a lookup
      takes the first binding of a key and an assignment replaces it in
      place or appends a new binding.
    - A raised exception is the [Raise] alternative of [result]; the
      handlers of the user searches and [get_product_by_id] additionally log
      the round trips they make to the document store.
    - A handler that writes takes what the store chooses (the identifier of
      the new document and its place in the stream order) as arguments and
      returns the store it leaves behind.
    - A global name is resolved when the line that uses it runs.  A name
      that [main.py] never binds ([math]) raises [NameError]; an attribute
      that a module does not have ([status.HTTP_200_SUCCESS]) raises
      [AttributeError]; calling an object that is not callable
      ([request.query_params]) raises [TypeError].
    - Numbers are carried as real numbers ([R]).  The theorems copy stored
      numbers and compare them for equality; none rests on the arithmetic
      of [haversine], which no call reaches.
    - [str.lower], [str.encode], [str()] of an exception,
      [hashlib.pbkdf2_hmac] and [jsonable_encoder] are parameters of the
      section below. *)

From Stdlib Require Import Reals Lra Lia ZArith List String Ascii Bool.
From Stdlib Require Import Strings.Byte DecimalString.
Import ListNotations.

Set Implicit Arguments.

(** * Part I: the embedding *)

(** ** Exceptions and results *)

Inductive exn : Type :=
| HTTPException (status_code : Z) (detail : string)
| TypeError
| AttributeError
| ValueError
| KeyError
| NameError.

Inductive result (A : Type) : Type :=
| Ok (a : A)
| Raise (e : exn).

Arguments Ok {A} a.
Arguments Raise {A} e.

Definition rbind {A B : Type} (m : result A) (f : A -> result B) : result B :=
  match m with
  | Ok a => f a
  | Raise e => Raise e
  end.

Declare Scope result_scope.
Delimit Scope result_scope with result.
Notation "x <- m ;; k" := (rbind m (fun x => k))
  (at level 61, m at next level, right associativity) : result_scope.

(** A [for] loop over [l] whose body may raise: [body acc x] is the state
    after the iteration on [x]. *)
Fixpoint for_each {A S : Type} (body : S -> A -> result S) (l : list A) (acc : S)
  : result S :=
  match l with
  | [] => Ok acc
  | x :: t => rbind (body acc x) (for_each body t)
  end.

(** ** Python's [math] module, over the reals *)

Module Math.

Local Open Scope R_scope.

(** [math.radians]: degrees to radians. *)
Definition radians (x : R) : R := x * (PI / 180).

(** [math.sqrt] raises [ValueError] on a negative argument. *)
Definition sqrt (x : R) : result R :=
  if Rlt_dec x 0 then Raise ValueError else Ok (R_sqrt.sqrt x).

(** [math.atan2 y x]: the angle of the point [(x, y)], in [(-PI, PI]]. *)
Definition atan2 (y x : R) : R :=
  if Rlt_dec 0 x then atan (y / x)
  else if Rlt_dec x 0 then
    if Rle_dec 0 y then atan (y / x) + PI else atan (y / x) - PI
  else
    if Rlt_dec 0 y then PI / 2
    else if Rlt_dec y 0 then - (PI / 2)
    else 0.

End Math.

(** ** Values, dictionaries and documents *)

(** What a field of a stored document, or a Python variable of the handlers,
    can hold. *)
#[warnings="-register-all"]
Inductive value : Type :=
| VNone
| VBool (b : bool)
| VNum (x : R)
| VStr (s : string)
| VBytes (b : list byte)
| VGeoPoint (latitude longitude : R)
| VDict (d : list (string * value)).

Definition dict : Type := list (string * value).

(** Python truthiness, as used by [if x:] and [if not x:]. *)
Definition truthy (v : value) : bool :=
  match v with
  | VNone => false
  | VBool b => b
  | VNum x => if Req_dec_T x 0 then false else true
  | VStr s => negb (String.eqb s "")
  | VBytes b => match b with [] => false | _ => true end
  | VGeoPoint _ _ => true
  | VDict d => match d with [] => false | _ => true end
  end.

Fixpoint lookup (k : string) (d : dict) : option value :=
  match d with
  | [] => None
  | (k', v) :: t => if String.eqb k k' then Some v else lookup k t
  end.

(** [d.get(k, default)]. *)
Definition dict_get_default (d : dict) (k : string) (default : value) : value :=
  match lookup k d with
  | Some v => v
  | None => default
  end.

(** [d.get(k)]. *)
Definition dict_get (d : dict) (k : string) : value :=
  dict_get_default d k VNone.

(** [d[k] = v]. *)
Fixpoint dict_set (k : string) (v : value) (d : dict) : dict :=
  match d with
  | [] => [(k, v)]
  | (k', v') :: t =>
      if String.eqb k k' then (k, v) :: t else (k', v') :: dict_set k v t
  end.

(** [d[k]]. *)
Definition dict_item (d : dict) (k : string) : result value :=
  match lookup k d with
  | Some v => Ok v
  | None => Raise KeyError
  end.

(** [x.get(k)] on an arbitrary value: only a [dict] has the method. *)
Definition py_get (x : value) (k : string) : result value :=
  match x with
  | VDict d => Ok (dict_get d k)
  | _ => Raise AttributeError
  end.

(** A value used as an operand of float arithmetic ([bool] is a number in
    Python). *)
Definition as_number (v : value) : result R :=
  match v with
  | VNum x => Ok x
  | VBool b => Ok (if b then 1%R else 0%R)
  | _ => Raise TypeError
  end.

(** A document snapshot: the identifier and, when the document exists, its
    fields ([to_dict()] is [None] for a document that does not exist). *)
Record DocumentSnapshot : Type := {
  doc_id : string;
  to_dict : option dict
}.

Definition doc_exists (doc : DocumentSnapshot) : bool :=
  match to_dict doc with
  | Some _ => true
  | None => false
  end.

(** ** The document store *)

(** A collection lists its documents (identifier, fields) in the order in
    which the store streams them; the store maps collection names to
    collections. *)
Definition collection : Type := list (string * dict).
Definition store : Type := string -> collection.

Inductive clause : Type :=
| WhereStrEq (field : string) (s : string)   (* .where(field, '==', s) *)
| WhereNotNone (field : string).             (* .where(field, '!=', None) *)

Definition clause_holds (c : clause) (d : dict) : bool :=
  match c with
  | WhereStrEq field s =>
      match lookup field d with
      | Some (VStr s') => String.eqb s' s
      | _ => false
      end
  | WhereNotNone field =>
      match lookup field d with
      | Some VNone | None => false
      | Some _ => true
      end
  end.

Definition run_query (q : list clause) (c : collection) : list dict :=
  map snd (filter (fun e => forallb (fun cl => clause_holds cl (snd e)) q) c).

Fixpoint find_document (product_id : string) (c : collection) : option dict :=
  match c with
  | [] => None
  | (i, d) :: t => if String.eqb product_id i then Some d else find_document product_id t
  end.

(** The round trips to the store. *)
Inductive op : Type :=
| OpStream (coll : string) (q : list clause)
| OpGet (coll : string) (document_id : string).

(** A handler computation: the store operations performed, and the value
    returned or the exception raised. *)
Definition M (A : Type) : Type := (list op * result A)%type.

Definition ret {A : Type} (a : A) : M A := ([], Ok a).
Definition raise {A : Type} (e : exn) : M A := ([], Raise e).
Definition lift {A : Type} (r : result A) : M A := ([], r).

Definition bind {A B : Type} (m : M A) (f : A -> M B) : M B :=
  match m with
  | (l, Ok a) => let (l', r) := f a in (l ++ l', r)
  | (l, Raise e) => (l, Raise e)
  end.

(** [try: m  except Exception as e: handler e]; every exception of [exn] is
    an [Exception]. *)
Definition try_except {A : Type} (m : M A) (handler : exn -> M A) : M A :=
  match m with
  | (l, Raise e) => let (l', r) := handler e in (l ++ l', r)
  | (l, Ok a) => (l, Ok a)
  end.

Declare Scope handler_scope.
Delimit Scope handler_scope with handler.
Notation "x <~ m ;; k" := (bind m (fun x => k))
  (at level 61, m at next level, right associativity) : handler_scope.

(** [db.collection(coll)...stream()] with the [where] clauses [q]. *)
Definition stream (db : store) (coll : string) (q : list clause) : M (list dict) :=
  ([OpStream coll q], Ok (run_query q (db coll))).

(** [db.collection(coll).document(document_id).get()]. *)
Definition get_document (db : store) (coll : string) (document_id : string)
  : M DocumentSnapshot :=
  ([OpGet coll document_id],
   Ok {| doc_id := document_id; to_dict := find_document document_id (db coll) |}).

(** ** Strings *)

(** [needle in hay]. *)
Fixpoint str_in (needle hay : string) : bool :=
  if String.prefix needle hay then true
  else match hay with
       | EmptyString => false
       | String _ rest => str_in needle rest
       end.

(** Truthiness of an optional query parameter: present and not empty. *)
Definition supplied (p : option string) : bool :=
  match p with
  | Some s => negb (String.eqb s "")
  | None => false
  end.

(** ** [list.sort(key=...)] *)

(** A stable sort on decorated pairs [(key, item)] that compares keys with
    [<] only, as [list.sort] does: an item goes before the first item that is
    not smaller. *)
Fixpoint sort_insert {A : Type} (x : R * A) (l : list (R * A)) : list (R * A) :=
  match l with
  | [] => [x]
  | y :: t =>
      if Rlt_dec (fst y) (fst x) then y :: sort_insert x t else x :: y :: t
  end.

Fixpoint sorted_by_key {A : Type} (l : list (R * A)) : list (R * A) :=
  match l with
  | [] => []
  | x :: t => sort_insert x (sorted_by_key t)
  end.

(** Evaluate the key of every item (the first failure is raised), sort the
    decorated list, and drop the keys. *)
Fixpoint decorate {A : Type} (key : A -> result R) (l : list A) : result (list (R * A)) :=
  match l with
  | [] => Ok []
  | x :: t =>
      rbind (key x) (fun k => rbind (decorate key t) (fun t' => Ok ((k, x) :: t')))
  end.

Definition list_sort {A : Type} (key : A -> result R) (l : list A) : result (list A) :=
  rbind (decorate key l) (fun dl => Ok (map snd (sorted_by_key dl))).

(** ** Writes, snapshots and request bodies *)

(** [d.pop(k)] leaves [d] without its binding of [k]. *)
Fixpoint dict_remove (k : string) (d : dict) : dict :=
  match d with
  | [] => []
  | (k', v) :: t =>
      if String.eqb k k' then t else (k', v) :: dict_remove k t
  end.

(** [[f(x) for x in l]], where [f] may raise. *)
Fixpoint map_result {A B : Type} (f : A -> result B) (l : list A) : result (list B) :=
  match l with
  | [] => Ok []
  | x :: t => rbind (f x) (fun y => rbind (map_result f t) (fun t' => Ok (y :: t')))
  end.

(** The snapshots a stream yields: one per stored document, which exists. *)
Definition snapshots (c : collection) : list DocumentSnapshot :=
  map (fun e => {| doc_id := fst e; to_dict := Some (snd e) |}) c.

(** [db.collection(coll).add(data)]: the store assigns the identifier
    [new_id] (one that is not in use) and the place [pos] the new document
    takes in the order in which it streams the collection. *)
Definition store_add (db : store) (coll new_id : string) (pos : nat) (data : dict)
  : store :=
  fun c =>
    if String.eqb c coll
    then firstn pos (db coll) ++ (new_id, data) :: skipn pos (db coll)
    else db c.

(** [db.collection(coll).document(document_id).delete()]: afterwards the
    collection has no such document; deleting a document that does not exist
    is not an error. *)
Definition store_delete (db : store) (coll document_id : string) : store :=
  fun c =>
    if String.eqb c coll
    then filter (fun e => negb (String.eqb document_id (fst e))) (db coll)
    else db c.

(** A [Dict[str, float]] of a request body, as a value. *)
Definition float_dict (l : list (string * R)) : value :=
  VDict (map (fun e => (fst e, VNum (snd e))) l).

Definition optional_str (o : option string) : value :=
  match o with
  | Some s => VStr s
  | None => VNone
  end.

Definition optional_float_dict (o : option (list (string * R))) : value :=
  match o with
  | Some l => float_dict l
  | None => VNone
  end.

Module ProductSchema.

Record t : Type := {
  name : string;
  description : string;
  price : R;
  quantity : Z;
  location : option (list (string * R))
}.

(** [product.dict()]. *)
Definition dict (product : t) : dict :=
  [("name", VStr (name product));
   ("description", VStr (description product));
   ("price", VNum (price product));
   ("quantity", VNum (IZR (quantity product)));
   ("location", optional_float_dict (location product))]%string.

End ProductSchema.

Module UserSchema.

Record t : Type := {
  phone_number : string;
  password : option string;
  email : option string;
  name : option string;
  type : string;
  description : option string;
  location : option (list (string * R));
  focus_area : option string
}.

(** [user.dict()]. *)
Definition dict (user : t) : dict :=
  [("phone_number", VStr (phone_number user));
   ("password", optional_str (password user));
   ("email", optional_str (email user));
   ("name", optional_str (name user));
   ("type", VStr (type user));
   ("description", optional_str (description user));
   ("location", optional_float_dict (location user));
   ("focus_area", optional_str (focus_area user))]%string.

End UserSchema.

(** What the handlers other than the two user searches return. *)
Inductive reply : Type :=
| ReplyProducts (products : list dict)
    (* {"products": products} *)
| ReplyCreated (message document_id : string)
    (* {"success": True, "message": message, "id": document_id} *)
| ReplyDeleted (message : string)
    (* {"success": True, "message": message} *)
| ReplyRegistered (message document_id : string) (status : Z).
    (* ({"success": True, "message": message, "id": document_id}, status) *)

(** ** Global names, [fastapi.status] and the request *)

Local Open Scope string_scope.

(** The global names of [main.py] when one of its functions runs: the
    imports of lines 1 to 10, the assignments of lines 13 to 18, and the
    functions and classes it defines.  [math] is not among them, and it is
    not a built-in name. *)
Definition module_globals : list string :=
  ["FastAPI"; "HTTPException"; "Query"; "Request"; "status";
   "JSONResponse"; "jsonable_encoder"; "BaseModel"; "Optional"; "Dict";
   "firebase_admin"; "credentials"; "firestore"; "hashlib"; "os"; "datetime";
   "cred"; "db"; "app";
   "serialize_firestore_document"; "hash_password"; "verify_password";
   "haversine"; "ProductSchema"; "UserSchema";
   "get_all_products"; "get_product_by_id"; "get_products_by_location";
   "create_product"; "delete_product"; "register_user"; "find_users";
   "find_users_by_location"].

(** Reading the global [name]. *)
Definition load_global (name : string) : result unit :=
  if existsb (String.eqb name) module_globals then Ok tt else Raise NameError.

(** The HTTP constants of [fastapi.status]. *)
Definition status_codes : list (string * Z) :=
  [("HTTP_100_CONTINUE", 100); ("HTTP_101_SWITCHING_PROTOCOLS", 101);
   ("HTTP_102_PROCESSING", 102); ("HTTP_103_EARLY_HINTS", 103);
   ("HTTP_200_OK", 200); ("HTTP_201_CREATED", 201); ("HTTP_202_ACCEPTED", 202);
   ("HTTP_203_NON_AUTHORITATIVE_INFORMATION", 203);
   ("HTTP_204_NO_CONTENT", 204); ("HTTP_205_RESET_CONTENT", 205);
   ("HTTP_206_PARTIAL_CONTENT", 206); ("HTTP_207_MULTI_STATUS", 207);
   ("HTTP_208_ALREADY_REPORTED", 208); ("HTTP_226_IM_USED", 226);
   ("HTTP_300_MULTIPLE_CHOICES", 300); ("HTTP_301_MOVED_PERMANENTLY", 301);
   ("HTTP_302_FOUND", 302); ("HTTP_303_SEE_OTHER", 303);
   ("HTTP_304_NOT_MODIFIED", 304); ("HTTP_305_USE_PROXY", 305);
   ("HTTP_306_RESERVED", 306); ("HTTP_307_TEMPORARY_REDIRECT", 307);
   ("HTTP_308_PERMANENT_REDIRECT", 308);
   ("HTTP_400_BAD_REQUEST", 400); ("HTTP_401_UNAUTHORIZED", 401);
   ("HTTP_402_PAYMENT_REQUIRED", 402); ("HTTP_403_FORBIDDEN", 403);
   ("HTTP_404_NOT_FOUND", 404); ("HTTP_405_METHOD_NOT_ALLOWED", 405);
   ("HTTP_406_NOT_ACCEPTABLE", 406);
   ("HTTP_407_PROXY_AUTHENTICATION_REQUIRED", 407);
   ("HTTP_408_REQUEST_TIMEOUT", 408); ("HTTP_409_CONFLICT", 409);
   ("HTTP_410_GONE", 410); ("HTTP_411_LENGTH_REQUIRED", 411);
   ("HTTP_412_PRECONDITION_FAILED", 412);
   ("HTTP_413_REQUEST_ENTITY_TOO_LARGE", 413);
   ("HTTP_414_REQUEST_URI_TOO_LONG", 414);
   ("HTTP_415_UNSUPPORTED_MEDIA_TYPE", 415);
   ("HTTP_416_REQUESTED_RANGE_NOT_SATISFIABLE", 416);
   ("HTTP_417_EXPECTATION_FAILED", 417); ("HTTP_418_IM_A_TEAPOT", 418);
   ("HTTP_421_MISDIRECTED_REQUEST", 421);
   ("HTTP_422_UNPROCESSABLE_ENTITY", 422); ("HTTP_423_LOCKED", 423);
   ("HTTP_424_FAILED_DEPENDENCY", 424); ("HTTP_425_TOO_EARLY", 425);
   ("HTTP_426_UPGRADE_REQUIRED", 426);
   ("HTTP_428_PRECONDITION_REQUIRED", 428);
   ("HTTP_429_TOO_MANY_REQUESTS", 429);
   ("HTTP_431_REQUEST_HEADER_FIELDS_TOO_LARGE", 431);
   ("HTTP_451_UNAVAILABLE_FOR_LEGAL_REASONS", 451);
   ("HTTP_500_INTERNAL_SERVER_ERROR", 500); ("HTTP_501_NOT_IMPLEMENTED", 501);
   ("HTTP_502_BAD_GATEWAY", 502); ("HTTP_503_SERVICE_UNAVAILABLE", 503);
   ("HTTP_504_GATEWAY_TIMEOUT", 504);
   ("HTTP_505_HTTP_VERSION_NOT_SUPPORTED", 505);
   ("HTTP_506_VARIANT_ALSO_NEGOTIATES", 506);
   ("HTTP_507_INSUFFICIENT_STORAGE", 507); ("HTTP_508_LOOP_DETECTED", 508);
   ("HTTP_510_NOT_EXTENDED", 510);
   ("HTTP_511_NETWORK_AUTHENTICATION_REQUIRED", 511)]%Z.

(** [status.name]: the module has no attribute outside its constants. *)
Definition status_attr (name : string) : result Z :=
  match find (fun c => String.eqb name (fst c)) status_codes with
  | Some c => Ok (snd c)
  | None => Raise AttributeError
  end.

(** A request.  [request.query_params] is the multi-dict of the pairs of the
    query string: it can be indexed and asked with [get], and its class
    defines no [__call__]. *)
Record Request : Type := {
  query_params : list (string * string)
}.

(** [query_params(name, ...)]: the call of an object that is not callable
    raises [TypeError] whatever the arguments are; [A] is the type of what
    the caller goes on with. *)
Definition call_query_params {A : Type} (q : list (string * string))
  (name : string) : result A :=
  Raise TypeError.

(** The request [GET /find_by_location?radius=5]: a radius and no center. *)
Definition request_without_center : Request :=
  {| query_params := [("radius", "5")] |}.

(** ** Sample environment and data

    A concrete choice for each parameter of the service, and small stores,
    used for the worked instances at the end. *)

Local Open Scope string_scope.

Definition sample_encode (s : string) : list byte := list_byte_of_string s.

(** [str] of an [HTTPException] as Starlette prints it: the status code, a
    colon and the detail. *)
Definition sample_str (e : exn) : string :=
  match e with
  | HTTPException status_code detail =>
      NilZero.string_of_int (Z.to_int status_code) ++ ": " ++ detail
  | TypeError => "TypeError"
  | AttributeError => "AttributeError"
  | ValueError => "ValueError"
  | KeyError => "KeyError"
  | NameError => "NameError"
  end.

(** A stand-in for the key derivation (not PBKDF2). *)
Definition sample_kdf (hash_name : string) (password salt : list byte)
  (iterations : Z) : list byte :=
  (salt ++ password)%list.

Definition sample_salt : list byte := repeat x2a 16.

Definition user_near : dict :=
  [("phone_number", VStr "9000000001"); ("type", VStr "seller");
   ("description", VStr "Rice farmer");
   ("location", VDict [("latitude", VNum 0); ("longitude", VNum (1 / 20))])].

Definition user_far : dict :=
  [("phone_number", VStr "9000000002"); ("type", VStr "buyer");
   ("description", VStr "Wholesale buyer");
   ("location", VDict [("latitude", VNum 1); ("longitude", VNum 1)])].

Definition user_no_location : dict :=
  [("phone_number", VStr "9000000004"); ("type", VStr "seller");
   ("description", VStr "Wheat and rice")].

Definition sample_product : dict :=
  [("name", VStr "rice"); ("description", VStr "basmati"); ("price", VNum 40);
   ("quantity", VNum 10); ("location", VGeoPoint 12 77)].

Definition sample_db : store :=
  fun coll =>
    if String.eqb coll "users" then
      [("u1", user_near); ("u2", user_far); ("u3", user_no_location)]
    else if String.eqb coll "products" then [("p1", sample_product)]
    else [].

(** A product to create, with an entry besides latitude and longitude. *)
Definition sample_new_product : ProductSchema.t :=
  {| ProductSchema.name := "wheat";
     ProductSchema.description := "durum";
     ProductSchema.price := 25;
     ProductSchema.quantity := 3;
     ProductSchema.location :=
       Some [("latitude", 12%R); ("longitude", 77%R); ("altitude", 900%R)] |}.

(** A product whose location uses other keys. *)
Definition sample_bad_product : ProductSchema.t :=
  {| ProductSchema.name := "maize";
     ProductSchema.description := "yellow";
     ProductSchema.price := 18;
     ProductSchema.quantity := 7;
     ProductSchema.location := Some [("lat", 12%R); ("lng", 77%R)] |}.


(** The same user with the empty string as password. *)
Definition sample_user_blank_password : UserSchema.t :=
  {| UserSchema.phone_number := "9000000009";
     UserSchema.password := Some "";
     UserSchema.email := None;
     UserSchema.name := Some "Asha";
     UserSchema.type := "seller";
     UserSchema.description := None;
     UserSchema.location := Some [("latitude", 0%R); ("longitude", (1 / 20)%R)];
     UserSchema.focus_area := None |}.

(** ** The service *)

Section Service.

(** [str.lower] and [str.encode]. *)
Variable lower : string -> string.
Variable encode : string -> list byte.
(** [str(e)] for an exception [e]. *)
Variable str : exn -> string.
(** [hashlib.pbkdf2_hmac(hash_name, password, salt, iterations)]. *)
Variable pbkdf2_hmac : string -> list byte -> list byte -> Z -> list byte.
(** [jsonable_encoder] on a list of dictionaries, and the JSON it produces;
    the encoder raises on a value it cannot encode. *)
Variable json : Type.
Variable jsonable_encoder : list dict -> result json.

Local Open Scope string_scope.
Local Open Scope result_scope.

(** *** Helper functions *)

(** One iteration of the loop over [data.items()]: the value currently bound
    to [key] is replaced when it is a geo point. *)
Definition serialize_step (data : dict) (key : string) : dict :=
  match lookup key data with
  | Some (VGeoPoint latitude longitude) =>
      dict_set key
        (VDict [("latitude", VNum latitude); ("longitude", VNum longitude)])
        data
  | _ => data
  end.

Definition serialize_firestore_document (doc : DocumentSnapshot) : result dict :=
  match to_dict doc with
  | None => Raise TypeError          (* None['id'] = ... *)
  | Some data =>
      let data := dict_set "id" (VStr (doc_id doc)) data in
      Ok (fold_left serialize_step (map fst data) data)
  end.

(** [salt] is what [os.urandom(16)] returned. *)
Definition hash_password (salt : list byte) (password : string) : list byte :=
  let hashed_password := pbkdf2_hmac "sha256" (encode password) salt 100000 in
  salt ++ hashed_password.


(** The first thing line 46 does is read the global [math], before the
    subtraction in the argument of [math.radians] is computed.  The
    subtractions raise [TypeError] unless their operands are numbers. *)
Definition haversine (lat1 lon1 lat2 lon2 : value) : result R :=
  let R := 6371%R in
  _ <- load_global "math" ;;
  lat2 <- as_number lat2 ;;
  lat1 <- as_number lat1 ;;
  let dlat := Math.radians (lat2 - lat1) in
  lon2 <- as_number lon2 ;;
  lon1 <- as_number lon1 ;;
  let dlon := Math.radians (lon2 - lon1) in
  let a :=
    (sin (dlat / 2) ^ 2
     + cos (Math.radians lat1) * cos (Math.radians lat2) * sin (dlon / 2) ^ 2)%R in
  sa <- Math.sqrt a ;;
  sb <- Math.sqrt (1 - a) ;;
  let c := (2 * Math.atan2 sa sb)%R in
  Ok (R * c)%R.

(** *** Responses *)

Record JSONResponse : Type := {
  content : json;
  status_code : Z
}.

(** What a handler returns. *)
Inductive returned : Type :=
| RetResponse (r : JSONResponse)
| RetDict (d : dict)
| RetNone.

(** *** GET /products/{product_id} *)

Definition get_product_by_id (db : store) (product_id : string) : M returned :=
  try_except
    (bind (get_document db "products" product_id) (fun doc =>
       if doc_exists doc then
         bind (lift (serialize_firestore_document doc)) (fun product =>
           ret (RetDict [("product", VDict product)]))
       else
         raise (HTTPException 404 "Product not found")))
    (fun e => raise (HTTPException 500 (str e))).

(** *** GET /users/find *)

(** [x.lower()] on an arbitrary value, used as the right operand of [in]
    with a [str] on the left. *)
Definition lower_of (x : value) : result string :=
  match x with
  | VStr s => Ok (lower s)
  | VBytes _ => Raise TypeError       (* str in bytes *)
  | _ => Raise AttributeError
  end.

(** [keyword and keyword.lower() not in user_data.get(field, '').lower()]. *)
Definition keyword_rejects (keyword : option string) (field : string)
  (user_data : dict) : result bool :=
  match keyword with
  | Some kw =>
      if supplied keyword then
        hay <- lower_of (dict_get_default user_data field (VStr "")) ;;
        Ok (negb (str_in (lower kw) hay))
      else Ok false
  | None => Ok false
  end.

(** The body of the loop of [find_users]; [filtered_users] is the list built
    so far. *)
Definition find_users_body (description_keyword focus_area_keyword : option string)
  (lat lng radius : option R) (filtered_users : list dict) (user_data : dict)
  : result (list dict) :=
  skip <- keyword_rejects description_keyword "description" user_data ;;
  if (skip : bool) then Ok filtered_users else
  skip <- keyword_rejects focus_area_keyword "focus_area" user_data ;;
  if (skip : bool) then Ok filtered_users else
  match lat, lng, radius with
  | Some lat, Some lng, Some radius =>
      let user_location := dict_get user_data "location" in
      if negb (truthy user_location) then Ok filtered_users else
      user_lat <- py_get user_location "latitude" ;;
      user_lng <- py_get user_location "longitude" ;;
      distance <- haversine (VNum lat) (VNum lng) user_lat user_lng ;;
      if Rlt_dec radius distance then Ok filtered_users else
      Ok (filtered_users ++ [dict_set "distance" (VNum distance) user_data])%list
  | _, _, _ => Ok (filtered_users ++ [user_data])%list
  end.

(** [query]: the collection, narrowed by [where('type', '==', user_type)]
    when [user_type] is supplied. *)
Definition type_query (user_type : option string) : list clause :=
  match user_type with
  | Some t => if supplied user_type then [WhereStrEq "type" t] else []
  | None => []
  end.

(** The handler.  Lines 157 to 162 call [query_params]; the response of line
    203 is built ([jsonable_encoder(...)] first, [status.HTTP_200_SUCCESS]
    second) and dropped, and the function ends without a [return]. *)
Definition find_users (request : Request) (db : store) : M returned :=
  let query_params := query_params request in
  bind (lift (call_query_params query_params "type"))
    (fun user_type : option string =>
  bind (lift (call_query_params query_params "description"))
    (fun description_keyword : option string =>
  bind (lift (call_query_params query_params "focus_area"))
    (fun focus_area_keyword : option string =>
  bind (lift (call_query_params query_params "lat")) (fun lat : option R =>
  bind (lift (call_query_params query_params "lng")) (fun lng : option R =>
  bind (lift (call_query_params query_params "radius")) (fun radius : option R =>
  let query := type_query user_type in
  bind (stream db "users" query) (fun users =>
  bind (lift (for_each
                (find_users_body description_keyword focus_area_keyword
                   lat lng radius)
                users [])) (fun filtered_users =>
  bind (lift (jsonable_encoder filtered_users)) (fun content =>
  bind (lift (status_attr "HTTP_200_SUCCESS")) (fun status_code =>
    let _ := {| content := content; status_code := status_code |} in
    ret RetNone)))))))))).

(** *** GET /find_by_location *)

Definition find_users_by_location_body (lat lng radius : R)
  (nearby_users : list dict) (user_data : dict) : result (list dict) :=
  let user_location := dict_get user_data "location" in
  if negb (truthy user_location) then Ok nearby_users else
  user_lat <- py_get user_location "latitude" ;;
  user_lng <- py_get user_location "longitude" ;;
  distance <- haversine (VNum lat) (VNum lng) user_lat user_lng ;;
  if Rle_dec distance radius then
    Ok (nearby_users ++ [dict_set "distance" (VNum distance) user_data])%list
  else Ok nearby_users.

(** [lambda x: x['distance']]; the keys are compared as numbers. *)
Definition distance_key (x : dict) : result R :=
  d <- dict_item x "distance" ;; as_number d.

(** Lines 209 to 211 call [query_params] ([radius] with [default=10]); the
    test of line 213 comes after them. *)
Definition find_users_by_location (request : Request) (db : store) : M returned :=
  let query_params := query_params request in
  bind (lift (call_query_params query_params "lat")) (fun lat : option R =>
  bind (lift (call_query_params query_params "lng")) (fun lng : option R =>
  bind (lift (call_query_params query_params "radius")) (fun radius : R =>
  match lat, lng with
  | Some lat, Some lng =>
      bind (stream db "users" [WhereNotNone "location"]) (fun users_ref =>
      bind (lift (for_each (find_users_by_location_body lat lng radius)
                    users_ref [])) (fun nearby_users =>
      bind (lift (list_sort distance_key nearby_users)) (fun nearby_users =>
      bind (lift (jsonable_encoder nearby_users)) (fun content =>
      bind (lift (status_attr "HTTP_200_SUCCESS")) (fun status_code =>
        ret (RetResponse {| content := content;
                            status_code := status_code |}))))))
  | _, _ =>
      raise (HTTPException 400 "No products found at the given location")
  end))).

(** *** The other handlers

    These run inside [try: ... except Exception as e: raise
    HTTPException(status_code=500, detail=str(e))]; a handler that writes
    returns the store it leaves behind as well. *)

Definition except_500 {A : Type} (r : result A) : result A :=
  match r with
  | Ok a => Ok a
  | Raise e => Raise (HTTPException 500 (str e))
  end.

(** GET /products *)
Definition get_all_products (db : store) : result (list dict) :=
  except_500
    (let products := snapshots (db "products") in
     product_list <- map_result serialize_firestore_document products ;;
     Ok product_list).

(** [.where('location', '==', geo_point)] *)
Definition located_at (lat lng : R) (e : string * dict) : bool :=
  match lookup "location" (snd e) with
  | Some (VGeoPoint latitude longitude) =>
      if Req_dec_T latitude lat
      then if Req_dec_T longitude lng then true else false
      else false
  | _ => false
  end.

(** GET /products/location *)
Definition get_products_by_location (lat lng : R) (db : store) : result reply :=
  except_500
    (let query := snapshots (filter (located_at lat lng) (db "products")) in
     products <- map_result serialize_firestore_document query ;;
     match products with
     | _ :: _ => Ok (ReplyProducts products)
     | [] =>
         Raise (HTTPException 404 "No products found at the given location")
     end).

(** [firestore.GeoPoint(loc['latitude'], loc['longitude'])]; the schema makes
    both entries floats. *)
Definition geo_point_of (loc : value) : result value :=
  match loc with
  | VDict l =>
      latitude <- dict_item l "latitude" ;;
      longitude <- dict_item l "longitude" ;;
      latitude <- as_number latitude ;;
      longitude <- as_number longitude ;;
      Ok (VGeoPoint latitude longitude)
  | _ => Raise TypeError
  end.

(** Lines 110 to 113 of [create_product]: the document to be stored. *)
Definition product_document (product : ProductSchema.t) : result dict :=
  let product_dict := ProductSchema.dict product in
  if match lookup "location" product_dict with
     | Some v => truthy v
     | None => false
     end
  then
    loc <- dict_item product_dict "location" ;;
    let product_dict := dict_remove "location" product_dict in
    geo_point <- geo_point_of loc ;;
    Ok (dict_set "location" geo_point product_dict)
  else Ok product_dict.

(** POST /products *)
Definition create_product (product : ProductSchema.t) (new_id : string) (pos : nat)
  (db : store) : result reply * store :=
  match product_document product with
  | Ok product_dict =>
      (Ok (ReplyCreated "Product created successfully" new_id),
       store_add db "products" new_id pos product_dict)
  | Raise e => (Raise (HTTPException 500 (str e)), db)
  end.

(** DELETE /products/{product_id} *)
Definition delete_product (product_id : string) (db : store) : result reply * store :=
  (Ok (ReplyDeleted "Product deleted successfully"),
   store_delete db "products" product_id).

(** Lines 138 to 140 of [register_user]: the document to be stored; [salt] is
    what [os.urandom(16)] returns inside [hash_password]. *)
Definition user_document (user : UserSchema.t) (salt : list byte) : dict :=
  let user_dict := UserSchema.dict user in
  match dict_get user_dict "password" with
  | VStr password =>
      if truthy (VStr password)
      then dict_set "password" (VBytes (hash_password salt password)) user_dict
      else user_dict
  | _ => user_dict
  end.

(** POST /users/register *)
Definition register_user (user : UserSchema.t) (salt : list byte)
  (new_id : string) (pos : nat) (db : store) : result reply * store :=
  let user_dict := user_document user salt in
  (Ok (ReplyRegistered "User registered successfully" new_id 201),
   store_add db "users" new_id pos user_dict).

(** *** Notions used to state the properties *)

(** What the loop does to one value. *)
Definition flatten_geo_point (v : value) : value :=
  match v with
  | VGeoPoint latitude longitude =>
      VDict [("latitude", VNum latitude); ("longitude", VNum longitude)]
  | _ => v
  end.

(** What the serialization helper returns for the stored document [i] with
    fields [data]. *)
Definition serialized_document (i : string) (data : dict) : dict :=
  let data := dict_set "id" (VStr i) data in
  fold_left serialize_step (map fst data) data.

(** The entry of a [Dict[str, float]] under a key. *)
Fixpoint entry (k : string) (l : list (string * R)) : option R :=
  match l with
  | [] => None
  | (k', x) :: t => if String.eqb k k' then Some x else entry k t
  end.

(** How the location of a request body reads once stored by
    [create_product] and served again: null stays null, the empty map stays
    the empty map, a map with a latitude and a longitude comes back with
    these two entries only; for any other map there is no stored product. *)
Definition location_as_read (location : option (list (string * R))) : option value :=
  match location with
  | None => Some VNone
  | Some [] => Some (VDict [])
  | Some l =>
      match entry "latitude" l, entry "longitude" l with
      | Some latitude, Some longitude =>
          Some (VDict [("latitude", VNum latitude); ("longitude", VNum longitude)])
      | _, _ => None
      end
  end.

(** A stored product that has a field of its own called [id]. *)
Definition product_with_id_field : DocumentSnapshot :=
  {| doc_id := "abc";
     to_dict := Some [("id", VStr "zzz"); ("name", VStr "rice")] |}.

(** * Part II: properties *)

(** ** The distance helper *)

Section HaversineFacts.

Local Open Scope string_scope.

Lemma math_is_not_bound : load_global "math" = Raise NameError.
Proof. reflexivity. Qed.

(** C8: [haversine] returns no distance.  On every four arguments, two
    equal points included, the call raises [NameError] at line 46, where the
    name [math] is read: [main.py] never imports the module.  No result
    exists that could be symmetric, zero or non-negative. *)
Theorem haversine_raises_name_error (lat1 lon1 lat2 lon2 : value) :
  haversine lat1 lon1 lat2 lon2 = Raise NameError
  /\ forall distance : R, haversine lat1 lon1 lat1 lon1 <> Ok distance.
Proof.
  unfold haversine. cbv zeta. rewrite math_is_not_bound.
  split; [reflexivity | discriminate].
Qed.

End HaversineFacts.

(** ** The password helper *)

Section PasswordFacts.

Local Open Scope string_scope.




End PasswordFacts.

(** ** The serialization helper *)

Section SerializeFacts.

Local Open Scope string_scope.

Lemma flatten_geo_point_idem (v : value) :
  flatten_geo_point (flatten_geo_point v) = flatten_geo_point v.
Proof. now destruct v. Qed.

Lemma lookup_dict_set_same (k : string) (v : value) (d : dict) :
  lookup k (dict_set k v d) = Some v.
Proof.
  induction d as [| [k' v'] t IH]; simpl.
  - now rewrite String.eqb_refl.
  - destruct (String.eqb k k') eqn:E; simpl; rewrite ?String.eqb_refl; trivial.
    now rewrite E.
Qed.

Lemma lookup_dict_set_other (k k' : string) (v : value) (d : dict) :
  k <> k' -> lookup k' (dict_set k v d) = lookup k' d.
Proof.
  intros N. induction d as [| [k0 v0] t IH]; simpl.
  - destruct (String.eqb k' k) eqn:E; trivial.
    apply String.eqb_eq in E. congruence.
  - destruct (String.eqb k k0) eqn:E; simpl.
    + apply String.eqb_eq in E. subst k0.
      destruct (String.eqb k' k) eqn:E'; trivial.
      apply String.eqb_eq in E'. congruence.
    + now rewrite IH.
Qed.

Lemma lookup_serialize_step (data : dict) (key k : string) :
  lookup k (serialize_step data key)
  = if String.eqb key k then option_map flatten_geo_point (lookup k data)
    else lookup k data.
Proof.
  unfold serialize_step.
  destruct (String.eqb key k) eqn:E.
  - apply String.eqb_eq in E. subst k.
    destruct (lookup key data) as [[] |] eqn:L; simpl; rewrite ?L; trivial.
    apply lookup_dict_set_same.
  - assert (key <> k) by (intros ->; now rewrite String.eqb_refl in E).
    destruct (lookup key data) as [[] |]; trivial.
    now apply lookup_dict_set_other.
Qed.

Lemma lookup_serialize_loop (keys : list string) (data : dict) (k : string) :
  lookup k (fold_left serialize_step keys data)
  = if existsb (fun key => String.eqb key k) keys
    then option_map flatten_geo_point (lookup k data)
    else lookup k data.
Proof.
  revert data. induction keys as [| key keys IH]; intros data; simpl; trivial.
  rewrite IH, lookup_serialize_step.
  destruct (String.eqb key k); simpl; trivial.
  destruct (existsb _ keys); trivial.
  destruct (lookup k data); simpl; trivial.
  now rewrite flatten_geo_point_idem.
Qed.

Lemma lookup_some_key (k : string) (v : value) (d : dict) :
  lookup k d = Some v -> existsb (fun key => String.eqb key k) (map fst d) = true.
Proof.
  induction d as [| [k' v'] t IH]; simpl; [discriminate |].
  rewrite (String.eqb_sym k' k).
  destruct (String.eqb k k'); simpl; auto.
Qed.

(** Every field of the output is the flattened field of the document with
    [id] set. *)
Lemma lookup_serialize (i : string) (data : dict) :
  exists out,
    serialize_firestore_document {| doc_id := i; to_dict := Some data |} = Ok out
    /\ forall k, lookup k out
                 = option_map flatten_geo_point (lookup k (dict_set "id" (VStr i) data)).
Proof.
  eexists. split; [reflexivity |]. intros k. simpl.
  rewrite lookup_serialize_loop.
  destruct (lookup k (dict_set "id" (VStr i) data)) eqn:L.
  - now rewrite (lookup_some_key _ _ L).
  - now destruct (existsb _ _).
Qed.

(** C9 (as amended): for every stored document, the serialization helper
    returns (it has no error case) a mapping whose [id] field is the
    document's identifier and in which every other field that holds a geo
    point is replaced by its latitude/longitude pair, every other field that
    does not is carried over unchanged, and no other field appears. *)
Theorem serialize_firestore_document_fields (i : string) (data : dict) :
  exists out,
    serialize_firestore_document {| doc_id := i; to_dict := Some data |} = Ok out
    /\ lookup "id" out = Some (VStr i)
    /\ (forall k latitude longitude,
          k <> "id" -> lookup k data = Some (VGeoPoint latitude longitude) ->
          lookup k out
          = Some (VDict [("latitude", VNum latitude); ("longitude", VNum longitude)]))
    /\ (forall k v,
          k <> "id" -> lookup k data = Some v ->
          (forall latitude longitude, v <> VGeoPoint latitude longitude) ->
          lookup k out = Some v)
    /\ (forall k, k <> "id" -> lookup k data = None -> lookup k out = None).
Proof.
  destruct (lookup_serialize i data) as (out & Hout & Hl).
  exists out. split; [exact Hout |].
  split; [| split; [| split]].
  - now rewrite Hl, lookup_dict_set_same.
  - intros k la lo Hk Hd.
    rewrite Hl, lookup_dict_set_other by congruence. now rewrite Hd.
  - intros k v Hk Hd Hv.
    rewrite Hl, lookup_dict_set_other by congruence. rewrite Hd. simpl.
    destruct v; trivial. now destruct (Hv latitude longitude).
  - intros k Hk Hd.
    rewrite Hl, lookup_dict_set_other by congruence. now rewrite Hd.
Qed.

(** C9 (as stated) fails on [product_with_id_field]: no output can both have
    [id] equal to the identifier "abc" and carry the stored non-geo field
    [id] = "zzz" over unchanged; the helper returns the former. *)
Lemma serialize_firestore_document_overwrites_id :
  serialize_firestore_document product_with_id_field
    = Ok [("id", VStr "abc"); ("name", VStr "rice")]
  /\ ~ (exists out,
          serialize_firestore_document product_with_id_field = Ok out
          /\ lookup "id" out = Some (VStr "abc")
          /\ (forall k latitude longitude,
                lookup k [("id", VStr "zzz"); ("name", VStr "rice")]
                  = Some (VGeoPoint latitude longitude) ->
                lookup k out
                = Some (VDict [("latitude", VNum latitude);
                               ("longitude", VNum longitude)]))
          /\ (forall k v,
                lookup k [("id", VStr "zzz"); ("name", VStr "rice")] = Some v ->
                (forall latitude longitude, v <> VGeoPoint latitude longitude) ->
                lookup k out = Some v)).
Proof.
  split; [reflexivity |].
  intros (out & Hout & Hid & _ & Hkeep).
  specialize (Hkeep "id" (VStr "zzz") eq_refl).
  rewrite Hkeep in Hid by discriminate.
  discriminate.
Qed.

End SerializeFacts.

(** ** The route handlers *)

Section HandlerFacts.

Local Open Scope string_scope.

(** *** GET /products/{product_id} *)

(** C5: for a product id that is absent from the products collection the
    handler makes its one read, raises the 404 inside its [try] block, catches
    it in [except Exception] and raises HTTP 500 instead, with [str] of the
    404 exception as detail. *)
Theorem get_product_by_id_absent (db : store) (product_id : string) :
  find_document product_id (db "products") = None ->
  get_product_by_id db product_id
  = ([OpGet "products" product_id],
     Raise (HTTPException 500 (str (HTTPException 404 "Product not found")))).
Proof.
  intros H. unfold get_product_by_id, get_document, doc_exists. simpl.
  rewrite H. reflexivity.
Qed.

(** *** GET /users/find *)

(** C2: [find_users] keeps no document.  On every request and every store
    the handler raises [TypeError] at line 157, the call
    [query_params('type')], before it has read the users collection: no
    filter is applied and no list is built. *)
Theorem find_users_raises_type_error (request : Request) (db : store) :
  find_users request db = ([], Raise TypeError).
Proof. reflexivity. Qed.

(** C6: on every request and every store [find_users] ends without a
    returned response: its outcome is the value [None] or an exception,
    never a [JSONResponse]. *)
Theorem find_users_returns_no_response (request : Request) (db : store) :
  (exists log,
     find_users request db = (log, Ok RetNone)
     \/ exists e, find_users request db = (log, Raise e))
  /\ forall log r, find_users request db <> (log, Ok (RetResponse r)).
Proof.
  split.
  - exists []. right. exists TypeError. reflexivity.
  - intros log r. unfold find_users. simpl. discriminate.
Qed.

(** C10: [find_users] never reaches the test of line 187.  Whatever the
    request supplies of latitude, longitude and radius, the handler ends
    with an exception, has made no read of the store, and its outcome is the
    same on every store: no document, with or without a location, is
    included in a result. *)
Theorem find_users_includes_no_document (request : Request) (db db' : store) :
  find_users request db = find_users request db'
  /\ fst (find_users request db) = []
  /\ forall r, snd (find_users request db) <> Ok r.
Proof.
  unfold find_users. simpl.
  split; [reflexivity | split; [reflexivity | discriminate]].
Qed.

(** The keyword test of lines 179 and 183 on a stored null: the default of
    [get] covers a missing key only, and [None] has no [lower]. *)
Lemma keyword_rejects_null_field (keyword field : string) (user_data : dict) :
  keyword <> "" -> lookup field user_data = Some VNone ->
  keyword_rejects (Some keyword) field user_data = Raise AttributeError.
Proof.
  intros Hkw Hnull. unfold keyword_rejects, dict_get_default.
  apply String.eqb_neq in Hkw. cbn [supplied]. rewrite Hkw, Hnull.
  reflexivity.
Qed.

(** *** GET /find_by_location *)

(** C1: [find_users_by_location] filters nothing.  On every request and
    every store the handler raises [TypeError] at line 209, the call
    [query_params('lat', type=float)], before it has read the users
    collection: no document is included in a result and no distance is
    computed. *)
Theorem find_users_by_location_raises_type_error (request : Request) (db : store) :
  find_users_by_location request db = ([], Raise TypeError).
Proof. reflexivity. Qed.

(** C3: [find_users_by_location] returns no list.  On no request and no
    store does the handler end with a returned value, so the sort of line
    236 is never reached. *)
Theorem find_users_by_location_returns_no_list (request : Request) (db : store) :
  forall log r, find_users_by_location request db <> (log, Ok r).
Proof.
  intros log r. unfold find_users_by_location. simpl. discriminate.
Qed.

(** C4: [find_users_by_location] never signals HTTP 400.  On a request
    without latitude and longitude, as on every other request, the handler
    raises [TypeError] and not an [HTTPException]: the calls of lines 209 to
    211 come before the test of line 213. *)
Theorem find_users_by_location_never_signals_400 (db : store) :
  find_users_by_location request_without_center db = ([], Raise TypeError)
  /\ forall request log status_code detail,
       find_users_by_location request db
       <> (log, Raise (HTTPException status_code detail)).
Proof.
  split; [reflexivity |].
  intros request log status_code detail.
  unfold find_users_by_location. simpl. discriminate.
Qed.

End HandlerFacts.

(** ** More on the helpers *)

Section HelperFacts.

Local Open Scope string_scope.


Lemma dict_set_keys (k : string) (v v0 : value) (d : dict) :
  lookup k d = Some v0 -> map fst (dict_set k v d) = map fst d.
Proof.
  induction d as [| [k' v'] t IH]; simpl; [discriminate |].
  destruct (String.eqb k k') eqn:E; simpl.
  - intros _. apply String.eqb_eq in E. now subst.
  - intros H. now rewrite IH.
Qed.

Lemma dict_set_keys_absent (k : string) (v : value) (d : dict) :
  lookup k d = None -> map fst (dict_set k v d) = (map fst d ++ [k])%list.
Proof.
  induction d as [| [k' v'] t IH]; simpl; trivial.
  destruct (String.eqb k k'); [discriminate |].
  intros H. simpl. now rewrite IH.
Qed.

Lemma dict_set_same_value (k : string) (v : value) (d : dict) :
  lookup k d = Some v -> dict_set k v d = d.
Proof.
  induction d as [| [k' v'] t IH]; simpl; [discriminate |].
  destruct (String.eqb k k') eqn:E.
  - intros [= ->]. apply String.eqb_eq in E. now subst.
  - intros H. now rewrite IH.
Qed.

Lemma serialize_step_keys (data : dict) (key : string) :
  map fst (serialize_step data key) = map fst data.
Proof.
  unfold serialize_step.
  destruct (lookup key data) as [[] |] eqn:L; trivial.
  eapply dict_set_keys, L.
Qed.

Lemma serialize_loop_keys (keys : list string) (data : dict) :
  map fst (fold_left serialize_step keys data) = map fst data.
Proof.
  revert data. induction keys as [| key keys IH]; intros data; simpl; trivial.
  now rewrite IH, serialize_step_keys.
Qed.

Lemma serialize_loop_no_geo_point (keys : list string) (data : dict) :
  (forall k latitude longitude,
     lookup k data <> Some (VGeoPoint latitude longitude)) ->
  fold_left serialize_step keys data = data.
Proof.
  intros H. induction keys as [| key keys IH]; simpl; trivial.
  assert (Hstep : serialize_step data key = data).
  { unfold serialize_step.
    destruct (lookup key data) as [[] |] eqn:L; trivial.
    now destruct (H key latitude longitude). }
  now rewrite Hstep.
Qed.

Lemma lookup_serialized (d : dict) (k : string) :
  lookup k (fold_left serialize_step (map fst d) d)
  = option_map flatten_geo_point (lookup k d).
Proof.
  rewrite lookup_serialize_loop.
  destruct (lookup k d) eqn:L.
  - now rewrite (lookup_some_key _ _ L).
  - now destruct (existsb _ _).
Qed.

(** X6: the output of the serialization helper has the fields of the
    document, [id] after them when the document has no field of that name, in
    their order, and none of them holds a geo point. *)
Theorem serialize_firestore_document_shape (i : string) (data : dict) :
  exists out,
    serialize_firestore_document {| doc_id := i; to_dict := Some data |} = Ok out
    /\ map fst out
       = match lookup "id" data with
         | Some _ => map fst data
         | None => (map fst data ++ ["id"])%list
         end
    /\ forall k latitude longitude,
         lookup k out <> Some (VGeoPoint latitude longitude).
Proof.
  eexists. split; [reflexivity |]. simpl. split.
  - rewrite serialize_loop_keys.
    destruct (lookup "id" data) eqn:L.
    + eapply dict_set_keys, L.
    + now apply dict_set_keys_absent.
  - intros k la lo. rewrite lookup_serialized.
    destruct (lookup k (dict_set "id" (VStr i) data)) as [[] |]; discriminate.
Qed.

(** X7: serializing is idempotent: fed its own output (under the same
    identifier) the helper returns it unchanged. *)
Theorem serialize_firestore_document_idempotent (i : string) (data : dict) :
  exists out,
    serialize_firestore_document {| doc_id := i; to_dict := Some data |} = Ok out
    /\ serialize_firestore_document {| doc_id := i; to_dict := Some out |} = Ok out.
Proof.
  destruct (lookup_serialize i data) as (out & Hout & Hl).
  exists out. split; [exact Hout |].
  unfold serialize_firestore_document. simpl.
  assert (Hid : lookup "id" out = Some (VStr i))
    by now rewrite Hl, lookup_dict_set_same.
  rewrite (dict_set_same_value _ _ Hid).
  rewrite serialize_loop_no_geo_point; trivial.
  intros k la lo. rewrite Hl.
  destruct (lookup k (dict_set "id" (VStr i) data)) as [[] |]; discriminate.
Qed.

End HelperFacts.

(** ** The product handlers *)

Section ProductFacts.

Local Open Scope string_scope.

Lemma serialize_stored (i : string) (data : dict) :
  serialize_firestore_document {| doc_id := i; to_dict := Some data |}
  = Ok (serialized_document i data).
Proof. reflexivity. Qed.

Lemma serialized_document_id (i : string) (data : dict) :
  lookup "id" (serialized_document i data) = Some (VStr i).
Proof.
  unfold serialized_document. cbv zeta.
  now rewrite lookup_serialized, lookup_dict_set_same.
Qed.

Lemma serialized_document_field (i : string) (data : dict) (k : string) :
  k <> "id" ->
  lookup k (serialized_document i data)
  = option_map flatten_geo_point (lookup k data).
Proof.
  intros Hk. unfold serialized_document. cbv zeta.
  rewrite lookup_serialized, lookup_dict_set_other; congruence.
Qed.

Lemma map_result_serialize (c : collection) :
  map_result serialize_firestore_document (snapshots c)
  = Ok (map (fun e => serialized_document (fst e) (snd e)) c).
Proof.
  unfold snapshots.
  induction c as [| e c IH]; [reflexivity |].
  cbn [map map_result]. rewrite serialize_stored. cbn [rbind].
  now rewrite IH.
Qed.

(** X8: for a product id that is in the collection the handler reads the
    store once and returns the product: its [id] is the requested id and its
    other fields are the stored ones, geo points flattened. *)
Theorem get_product_by_id_present (db : store) (product_id : string) (data : dict) :
  find_document product_id (db "products") = Some data ->
  exists product,
    get_product_by_id db product_id
    = ([OpGet "products" product_id],
       Ok (RetDict [("product", VDict product)]))
    /\ lookup "id" product = Some (VStr product_id)
    /\ forall k, k <> "id" ->
         lookup k product = option_map flatten_geo_point (lookup k data).
Proof.
  intros H. exists (serialized_document product_id data).
  split; [| split].
  - unfold get_product_by_id, get_document, doc_exists. simpl. rewrite H.
    reflexivity.
  - apply serialized_document_id.
  - intros k Hk. now apply serialized_document_field.
Qed.

(** X9: whatever the store and the id, the handler makes exactly one read,
    and when it fails it fails with HTTP 500: it never signals 404. *)
Theorem get_product_by_id_fails_with_500 (db : store) (product_id : string) :
  exists outcome,
    get_product_by_id db product_id = ([OpGet "products" product_id], outcome)
    /\ forall e, outcome = Raise e -> exists detail, e = HTTPException 500 detail.
Proof.
  unfold get_product_by_id, get_document, doc_exists. simpl.
  destruct (find_document product_id (db "products")) as [data |]; simpl.
  - eexists. split; [reflexivity |]. intros e. discriminate.
  - eexists. split; [reflexivity |]. intros e [= <-]. now eexists.
Qed.

(** X10: listing the products never fails: the handler returns one entry per
    stored product, in the order of the collection (the empty list for an
    empty collection), each with the product's identifier under [id] and its
    other fields as stored, geo points flattened. *)
Theorem get_all_products_lists_every_product (db : store) :
  exists product_list,
    get_all_products db = Ok product_list
    /\ Forall2
         (fun e product =>
            lookup "id" product = Some (VStr (fst e))
            /\ forall k, k <> "id" ->
                 lookup k product
                 = option_map flatten_geo_point (lookup k (snd e)))
         (db "products") product_list.
Proof.
  exists (map (fun e => serialized_document (fst e) (snd e)) (db "products")).
  split.
  - unfold get_all_products. cbv zeta. now rewrite map_result_serialize.
  - induction (db "products") as [| e c IH]; simpl; constructor; trivial.
    split; [apply serialized_document_id |].
    intros k Hk. now apply serialized_document_field.
Qed.

(** X11: when no stored product has exactly the geo point [(lat, lng)] as
    its location, the 404 raised for the empty result is caught by the
    handler's own [except] and comes out as HTTP 500. *)
Theorem get_products_by_location_none_found (lat lng : R) (db : store) :
  (forall e, In e (db "products") -> located_at lat lng e = false) ->
  get_products_by_location lat lng db
  = Raise (HTTPException 500
             (str (HTTPException 404 "No products found at the given location"))).
Proof.
  intros H. unfold get_products_by_location. cbv zeta.
  assert (Hnone : filter (located_at lat lng) (db "products") = []).
  { induction (db "products") as [| e c IH]; [reflexivity |].
    simpl. rewrite (H e (or_introl eq_refl)). apply IH.
    intros e' He'. apply H. now right. }
  now rewrite Hnone.
Qed.

(** X12: when some stored product has the geo point [(lat, lng)] as its
    location, the handler returns the products located exactly there, in the
    order of the collection, each with its identifier and with [location]
    flattened to that latitude and longitude. *)
Theorem get_products_by_location_found (lat lng : R) (db : store) :
  (exists e, In e (db "products") /\ located_at lat lng e = true) ->
  exists products,
    get_products_by_location lat lng db = Ok (ReplyProducts products)
    /\ products <> []
    /\ Forall2
         (fun e product =>
            lookup "id" product = Some (VStr (fst e))
            /\ lookup "location" product
               = Some (VDict [("latitude", VNum lat); ("longitude", VNum lng)]))
         (filter (located_at lat lng) (db "products")) products.
Proof.
  intros (e0 & Hin & Hat).
  set (found := filter (located_at lat lng) (db "products")).
  assert (Hfound : In e0 found) by (apply filter_In; now split).
  exists (map (fun e => serialized_document (fst e) (snd e)) found).
  split; [| split].
  - unfold get_products_by_location. cbv zeta. fold found.
    rewrite map_result_serialize. simpl.
    destruct found; [contradiction | reflexivity].
  - destruct found; [contradiction | discriminate].
  - assert (Hall : Forall (fun e => located_at lat lng e = true) found).
    { apply Forall_forall. intros e He. now apply filter_In in He. }
    clear Hfound. induction Hall as [| e c He _ IH]; simpl; constructor; trivial.
    split; [apply serialized_document_id |].
    rewrite serialized_document_field by discriminate.
    unfold located_at in He.
    destruct (lookup "location" (snd e)) as [[] |]; try discriminate.
    destruct (Req_dec_T latitude lat); [| discriminate].
    destruct (Req_dec_T longitude lng); [| discriminate].
    now subst.
Qed.

End ProductFacts.

(** ** Writes: products *)

Section WriteFacts.

Local Open Scope string_scope.

Lemma find_document_app (i : string) (c1 c2 : collection) :
  find_document i (c1 ++ c2)%list
  = match find_document i c1 with
    | Some d => Some d
    | None => find_document i c2
    end.
Proof.
  induction c1 as [| [j d] c1 IH]; simpl; trivial.
  now destruct (String.eqb i j).
Qed.

Lemma find_document_insert (i j : string) (d : dict) (pos : nat) (c : collection) :
  find_document i (firstn pos c ++ (j, d) :: skipn pos c)%list
  = if String.eqb i j
    then match find_document i (firstn pos c) with
         | Some d' => Some d'
         | None => Some d
         end
    else find_document i c.
Proof.
  rewrite find_document_app. simpl.
  destruct (String.eqb i j); trivial.
  rewrite <- (find_document_app i (firstn pos c) (skipn pos c)).
  now rewrite firstn_skipn.
Qed.

Lemma find_document_none (i : string) (c : collection) :
  find_document i c = None <-> forall e, In e c -> fst e <> i.
Proof.
  induction c as [| [j d] c IH]; simpl.
  - split; [intros _ e [] | reflexivity].
  - destruct (String.eqb i j) eqn:E.
    + apply String.eqb_eq in E. subst j. split; [discriminate |].
      intros H. now destruct (H (i, d) (or_introl eq_refl)).
    + apply String.eqb_neq in E. rewrite IH. split.
      * intros H e [<- | He]; [simpl; congruence | now apply H].
      * intros H e He. apply H. now right.
Qed.

Lemma find_document_firstn_none (i : string) (pos : nat) (c : collection) :
  find_document i c = None -> find_document i (firstn pos c) = None.
Proof.
  rewrite !find_document_none. intros H e He.
  apply H. rewrite <- (firstn_skipn pos c). apply in_or_app. now left.
Qed.

Lemma find_document_remove (i j : string) (c : collection) :
  find_document i (filter (fun e => negb (String.eqb j (fst e))) c)
  = if String.eqb i j then None else find_document i c.
Proof.
  induction c as [| [k d] c IH]; simpl.
  - now destruct (String.eqb i j).
  - destruct (String.eqb j k) eqn:Ejk; simpl.
    + apply String.eqb_eq in Ejk. subst k. rewrite IH.
      now destruct (String.eqb i j).
    + rewrite IH. destruct (String.eqb i k) eqn:Eik; trivial.
      apply String.eqb_eq in Eik. subst k.
      rewrite String.eqb_sym in Ejk. now rewrite Ejk.
Qed.

Lemma remove_absent (j : string) (c : collection) :
  find_document j c = None ->
  filter (fun e => negb (String.eqb j (fst e))) c = c.
Proof.
  induction c as [| [k d] c IH]; simpl; trivial.
  destruct (String.eqb j k); [discriminate |].
  intros H. simpl. now rewrite IH.
Qed.

Lemma remove_inserted (j : string) (d : dict) (pos : nat) (c : collection) :
  find_document j c = None ->
  filter (fun e => negb (String.eqb j (fst e)))
    (firstn pos c ++ (j, d) :: skipn pos c)%list = c.
Proof.
  intros H. rewrite filter_app. simpl. rewrite String.eqb_refl. simpl.
  rewrite <- filter_app, firstn_skipn. now apply remove_absent.
Qed.

Lemma lookup_float_dict (k : string) (l : list (string * R)) :
  lookup k (map (fun e => (fst e, VNum (snd e))) l) = option_map VNum (entry k l).
Proof.
  induction l as [| [k' x] l IH]; simpl; trivial.
  now destruct (String.eqb k k').
Qed.

(** The document [create_product] stores, by the shape of the location. *)
Lemma product_document_spec (product : ProductSchema.t) :
  product_document product
  = match location_as_read (ProductSchema.location product) with
    | None => Raise KeyError
    | Some v =>
        Ok [("name", VStr (ProductSchema.name product));
            ("description", VStr (ProductSchema.description product));
            ("price", VNum (ProductSchema.price product));
            ("quantity", VNum (IZR (ProductSchema.quantity product)));
            ("location",
             match v with
             | VDict [("latitude", VNum latitude); ("longitude", VNum longitude)] =>
                 VGeoPoint latitude longitude
             | _ => v
             end)]
    end.
Proof.
  unfold product_document, ProductSchema.dict. cbv zeta.
  destruct (ProductSchema.location product) as [[| e l] |]; try reflexivity.
  set (loc := e :: l).
  cbn [lookup String.eqb Ascii.eqb Bool.eqb optional_float_dict float_dict
       truthy map dict_item dict_remove rbind geo_point_of].
  unfold location_as_read. fold loc.
  unfold dict_item. rewrite !lookup_float_dict.
  destruct (entry "latitude" loc) as [la |]; cbn [option_map rbind].
  - destruct (entry "longitude" loc) as [lo |]; cbn [option_map rbind as_number];
      reflexivity.
  - reflexivity.
Qed.

Lemma store_add_same (db : store) (coll new_id : string) (pos : nat) (data : dict) :
  store_add db coll new_id pos data coll
  = (firstn pos (db coll) ++ (new_id, data) :: skipn pos (db coll))%list.
Proof. unfold store_add. now rewrite String.eqb_refl. Qed.

Lemma store_add_other (db : store) (coll new_id : string) (pos : nat)
  (data : dict) (c : string) :
  c <> coll -> store_add db coll new_id pos data c = db c.
Proof.
  intros H. unfold store_add. apply String.eqb_neq in H. now rewrite H.
Qed.

Lemma store_delete_same (db : store) (coll document_id : string) :
  store_delete db coll document_id coll
  = filter (fun e => negb (String.eqb document_id (fst e))) (db coll).
Proof. unfold store_delete. now rewrite String.eqb_refl. Qed.

Lemma store_delete_other (db : store) (coll document_id c : string) :
  c <> coll -> store_delete db coll document_id c = db c.
Proof.
  intros H. unfold store_delete. apply String.eqb_neq in H. now rewrite H.
Qed.

(** X13: a product created under an unused identifier can be read back
    under that identifier: the fields come back as sent, the location as
    [location_as_read] describes (a latitude/longitude map survives the trip
    through a geo point, without any further entry), and [id] is added. *)
Theorem create_product_then_get (product : ProductSchema.t) (new_id : string)
  (pos : nat) (db : store) (location : value) :
  find_document new_id (db "products") = None ->
  location_as_read (ProductSchema.location product) = Some location ->
  fst (create_product product new_id pos db)
  = Ok (ReplyCreated "Product created successfully" new_id)
  /\ get_product_by_id (snd (create_product product new_id pos db)) new_id
     = ([OpGet "products" new_id],
        Ok (RetDict
              [("product",
                VDict [("name", VStr (ProductSchema.name product));
                       ("description", VStr (ProductSchema.description product));
                       ("price", VNum (ProductSchema.price product));
                       ("quantity", VNum (IZR (ProductSchema.quantity product)));
                       ("location", location);
                       ("id", VStr new_id)])])).
Proof.
  intros Hfresh Hloc. unfold create_product.
  rewrite product_document_spec, Hloc. simpl fst. simpl snd.
  split; [reflexivity |].
  unfold get_product_by_id, get_document, doc_exists. simpl to_dict.
  rewrite store_add_same, find_document_insert, String.eqb_refl.
  rewrite (@find_document_firstn_none new_id pos _ Hfresh).
  unfold location_as_read in Hloc.
  destruct (ProductSchema.location product) as [[| e l] |].
  - injection Hloc as <-. reflexivity.
  - destruct (entry "latitude" (e :: l)); [| discriminate].
    destruct (entry "longitude" (e :: l)); [| discriminate].
    injection Hloc as <-. reflexivity.
  - injection Hloc as <-. reflexivity.
Qed.

(** X14: a location that is not empty and lacks [latitude] or [longitude]
    makes [create_product] fail with HTTP 500 (the [KeyError] is caught), and
    nothing is written. *)
Theorem create_product_bad_location (product : ProductSchema.t) (new_id : string)
  (pos : nat) (db : store) :
  location_as_read (ProductSchema.location product) = None ->
  create_product product new_id pos db
  = (Raise (HTTPException 500 (str KeyError)), db).
Proof.
  intros Hloc. unfold create_product.
  now rewrite product_document_spec, Hloc.
Qed.

(** X15: whether it succeeds or not, [create_product] leaves every other
    product and every other collection as they were. *)
Theorem create_product_frame (product : ProductSchema.t) (new_id : string)
  (pos : nat) (db : store) :
  (forall i, i <> new_id ->
     find_document i (snd (create_product product new_id pos db) "products")
     = find_document i (db "products"))
  /\ (forall coll, coll <> "products" ->
        snd (create_product product new_id pos db) coll = db coll).
Proof.
  unfold create_product.
  destruct (product_document product) as [product_dict | e]; simpl snd.
  - split.
    + intros i Hi. rewrite store_add_same, find_document_insert.
      apply String.eqb_neq in Hi. now rewrite Hi.
    + intros coll Hc. now apply store_add_other.
  - split; reflexivity.
Qed.

(** X16: [delete_product] always reports success, whether or not the
    product exists; afterwards the identifier is absent, every other product
    and every other collection is as before, and deleting an identifier that
    was absent changes nothing. *)
Theorem delete_product_removes (product_id : string) (db : store) :
  fst (delete_product product_id db)
  = Ok (ReplyDeleted "Product deleted successfully")
  /\ find_document product_id (snd (delete_product product_id db) "products")
     = None
  /\ (forall i, i <> product_id ->
        find_document i (snd (delete_product product_id db) "products")
        = find_document i (db "products"))
  /\ (forall coll, coll <> "products" ->
        snd (delete_product product_id db) coll = db coll)
  /\ (find_document product_id (db "products") = None ->
      snd (delete_product product_id db) "products" = db "products").
Proof.
  unfold delete_product. simpl fst. simpl snd.
  split; [reflexivity |]. split; [| split; [| split]].
  - now rewrite store_delete_same, find_document_remove, String.eqb_refl.
  - intros i Hi. rewrite store_delete_same, find_document_remove.
    apply String.eqb_neq in Hi. now rewrite Hi.
  - intros coll Hc. now apply store_delete_other.
  - intros H. rewrite store_delete_same. now apply remove_absent.
Qed.

(** X17: reading a product after deleting it gives HTTP 500, not 404. *)
Theorem delete_product_then_get (product_id : string) (db : store) :
  get_product_by_id (snd (delete_product product_id db)) product_id
  = ([OpGet "products" product_id],
     Raise (HTTPException 500 (str (HTTPException 404 "Product not found")))).
Proof.
  unfold get_product_by_id, get_document, doc_exists, delete_product.
  simpl to_dict. simpl snd.
  now rewrite store_delete_same, find_document_remove, String.eqb_refl.
Qed.

(** X18: deleting a product right after creating it under an unused
    identifier restores every collection of the store. *)
Theorem create_then_delete_product (product : ProductSchema.t) (new_id : string)
  (pos : nat) (db : store) :
  find_document new_id (db "products") = None ->
  forall coll,
    snd (delete_product new_id (snd (create_product product new_id pos db))) coll
    = db coll.
Proof.
  intros Hfresh coll. unfold delete_product, create_product. simpl snd.
  destruct (String.eqb coll "products") eqn:E.
  - apply String.eqb_eq in E. subst coll. rewrite store_delete_same.
    destruct (product_document product); simpl snd.
    + rewrite store_add_same. now apply remove_inserted.
    + now apply remove_absent.
  - apply String.eqb_neq in E. rewrite store_delete_other by assumption.
    destruct (product_document product); simpl snd; trivial.
    now apply store_add_other.
Qed.

End WriteFacts.

(** ** Writes: users *)

Section RegisterFacts.

Local Open Scope string_scope.


Lemma user_dict_password (user : UserSchema.t) :
  dict_get (UserSchema.dict user) "password"
  = optional_str (UserSchema.password user).
Proof. reflexivity. Qed.

Lemma registered_document (user : UserSchema.t) (salt : list byte)
  (new_id : string) (pos : nat) (db : store) :
  find_document new_id (db "users") = None ->
  find_document new_id (snd (register_user user salt new_id pos db) "users")
  = Some (user_document user salt).
Proof.
  intros Hfresh. unfold register_user. cbv zeta. simpl snd.
  rewrite store_add_same, find_document_insert, String.eqb_refl.
  now rewrite (@find_document_firstn_none new_id pos _ Hfresh).
Qed.


(** X20: a user registered without a password, or with the empty string as
    password, is stored exactly as sent: nothing is hashed, so an empty
    password is kept as the empty string. *)
Theorem register_user_without_password (user : UserSchema.t) (salt : list byte)
  (new_id : string) (pos : nat) (db : store) :
  UserSchema.password user = None \/ UserSchema.password user = Some "" ->
  find_document new_id (db "users") = None ->
  find_document new_id (snd (register_user user salt new_id pos db) "users")
  = Some (UserSchema.dict user)
  /\ lookup "password" (UserSchema.dict user)
     = Some (optional_str (UserSchema.password user)).
Proof.
  intros Hpw Hfresh. split; [| reflexivity].
  rewrite registered_document by assumption. f_equal.
  unfold user_document. cbv zeta. rewrite user_dict_password.
  now destruct Hpw as [-> | ->].
Qed.

Lemma in_store_add (db : store) (coll new_id : string) (pos : nat) (data : dict) :
  In (new_id, data) (store_add db coll new_id pos data coll).
Proof.
  rewrite store_add_same. apply in_or_app. right. now left.
Qed.

End RegisterFacts.

(** ** Writing, then searching *)

Section ComposeFacts.

Local Open Scope string_scope.

(** X30: a product created with a latitude and a longitude is found by the
    location search at exactly that point: the answer holds the product as
    sent, with its identifier. *)
Theorem create_product_then_search_location (product : ProductSchema.t)
  (new_id : string) (pos : nat) (db : store) (l : list (string * R))
  (latitude longitude : R) :
  ProductSchema.location product = Some l ->
  entry "latitude" l = Some latitude -> entry "longitude" l = Some longitude ->
  exists products,
    get_products_by_location latitude longitude
      (snd (create_product product new_id pos db))
    = Ok (ReplyProducts products)
    /\ In [("name", VStr (ProductSchema.name product));
           ("description", VStr (ProductSchema.description product));
           ("price", VNum (ProductSchema.price product));
           ("quantity", VNum (IZR (ProductSchema.quantity product)));
           ("location",
            VDict [("latitude", VNum latitude); ("longitude", VNum longitude)]);
           ("id", VStr new_id)] products.
Proof.
  intros Hloc Hla Hlo.
  assert (Hread : location_as_read (ProductSchema.location product)
                  = Some (VDict [("latitude", VNum latitude);
                                 ("longitude", VNum longitude)])).
  { rewrite Hloc. destruct l as [| e l]; [discriminate |].
    unfold location_as_read. now rewrite Hla, Hlo. }
  set (doc := [("name", VStr (ProductSchema.name product));
               ("description", VStr (ProductSchema.description product));
               ("price", VNum (ProductSchema.price product));
               ("quantity", VNum (IZR (ProductSchema.quantity product)));
               ("location", VGeoPoint latitude longitude)]).
  assert (Hdb : snd (create_product product new_id pos db)
                = store_add db "products" new_id pos doc).
  { unfold create_product. now rewrite product_document_spec, Hread. }
  rewrite Hdb.
  set (found := filter (located_at latitude longitude)
                  (store_add db "products" new_id pos doc "products")).
  assert (Hfound : In (new_id, doc) found).
  { apply filter_In. split; [apply in_store_add |].
    unfold located_at, doc. cbn.
    destruct (Req_dec_T latitude latitude); [| contradiction].
    destruct (Req_dec_T longitude longitude); [reflexivity | contradiction]. }
  exists (map (fun e => serialized_document (fst e) (snd e)) found).
  split.
  - unfold get_products_by_location. cbv zeta. fold found.
    rewrite map_result_serialize. simpl.
    destruct found; [contradiction | reflexivity].
  - apply in_map_iff. exists (new_id, doc). split; [reflexivity | exact Hfound].
Qed.

End ComposeFacts.

End Service.

(** * Part III: worked instances

    Each theorem above that has a hypothesis is applied here to the sample
    environment and data of Part I. *)

(** An identifier the sample products collection does not hold. *)
Lemma get_product_by_id_absent_instance :
  find_document "unknown-id" (sample_db "products") = None
  /\ get_product_by_id sample_str (list dict) sample_db "unknown-id"
     = ([OpGet "products" "unknown-id"],
        Raise (HTTPException 500 "404: Product not found")).
Proof.
  split; [reflexivity |].
  apply (@get_product_by_id_absent sample_str (list dict) sample_db "unknown-id").
  reflexivity.
Defined.



(** The stored product p1. *)
Lemma get_product_by_id_present_instance :
  find_document "p1" (sample_db "products") = Some sample_product
  /\ exists product,
       get_product_by_id sample_str (list dict) sample_db "p1"
       = ([OpGet "products" "p1"], Ok (@RetDict (list dict) [("product", VDict product)]))
       /\ lookup "id" product = Some (VStr "p1").
Proof.
  split; [reflexivity |].
  destruct (@get_product_by_id_present sample_str (list dict) sample_db "p1"
              sample_product eq_refl) as (product & H & Hid & _).
  exists product. split; [exact H | exact Hid].
Defined.

(** No sample product is located at (0, 0). *)
Lemma get_products_by_location_none_found_instance :
  (forall e, In e (sample_db "products") -> located_at 0 0 e = false)
  /\ get_products_by_location sample_str 0 0 sample_db
     = Raise (HTTPException 500 "404: No products found at the given location").
Proof.
  assert (H : forall e, In e (sample_db "products") -> located_at 0 0 e = false).
  { intros e [<- | []]. unfold located_at. simpl.
    destruct (Req_dec_T 12 0); [lra | reflexivity]. }
  split; [exact H |].
  apply (@get_products_by_location_none_found sample_str 0%R 0%R sample_db H).
Defined.

(** The sample product is located at (12, 77). *)
Lemma get_products_by_location_found_instance :
  (exists e, In e (sample_db "products") /\ located_at 12 77 e = true)
  /\ exists products,
       get_products_by_location sample_str 12 77 sample_db
       = Ok (ReplyProducts products)
       /\ products <> [].
Proof.
  assert (H : exists e, In e (sample_db "products") /\ located_at 12 77 e = true).
  { exists ("p1", sample_product). split; [now left |].
    unfold located_at. simpl.
    destruct (Req_dec_T 12 12); [| contradiction].
    destruct (Req_dec_T 77 77); [reflexivity | contradiction]. }
  split; [exact H |].
  destruct (@get_products_by_location_found sample_str 12%R 77%R sample_db H)
    as (products & Hget & Hne & _).
  exists products. split; [exact Hget | exact Hne].
Defined.

(** Creating the sample product as p2 and reading it back. *)
Lemma create_product_then_get_instance :
  find_document "p2" (sample_db "products") = None
  /\ location_as_read (ProductSchema.location sample_new_product)
     = Some (VDict [("latitude", VNum 12); ("longitude", VNum 77)])
  /\ get_product_by_id sample_str (list dict)
       (snd (create_product sample_str sample_new_product "p2" 1 sample_db)) "p2"
     = ([OpGet "products" "p2"],
        Ok (@RetDict (list dict)
              [("product",
                VDict [("name", VStr "wheat"); ("description", VStr "durum");
                       ("price", VNum 25); ("quantity", VNum 3);
                       ("location",
                        VDict [("latitude", VNum 12); ("longitude", VNum 77)]);
                       ("id", VStr "p2")])])).
Proof.
  split; [reflexivity |]. split; [reflexivity |].
  apply (@create_product_then_get sample_str (list dict) sample_new_product
           "p2" 1%nat sample_db
           (VDict [("latitude", VNum 12); ("longitude", VNum 77)])
           eq_refl eq_refl).
Defined.

(** A location with the keys lat and lng. *)
Lemma create_product_bad_location_instance :
  location_as_read (ProductSchema.location sample_bad_product) = None
  /\ create_product sample_str sample_bad_product "p2" 0 sample_db
     = (Raise (HTTPException 500 "KeyError"), sample_db).
Proof.
  split; [reflexivity |].
  apply (@create_product_bad_location sample_str sample_bad_product "p2" 0%nat
           sample_db).
  reflexivity.
Defined.

(** Creating p2 and deleting it again. *)
Lemma create_then_delete_product_instance :
  find_document "p2" (sample_db "products") = None
  /\ snd (delete_product "p2"
            (snd (create_product sample_str sample_new_product "p2" 1 sample_db)))
       "products"
     = sample_db "products".
Proof.
  split; [reflexivity |].
  apply (@create_then_delete_product sample_str sample_new_product "p2" 1%nat
           sample_db).
  reflexivity.
Defined.


(** Registering with the empty string as password. *)
Lemma register_user_without_password_instance :
  (UserSchema.password sample_user_blank_password = None
   \/ UserSchema.password sample_user_blank_password = Some "")
  /\ find_document "u9" (sample_db "users") = None
  /\ find_document "u9"
       (snd (register_user sample_encode sample_kdf sample_user_blank_password
               sample_salt "u9" 0 sample_db) "users")
     = Some (UserSchema.dict sample_user_blank_password).
Proof.
  assert (H : UserSchema.password sample_user_blank_password = None
              \/ UserSchema.password sample_user_blank_password = Some "")
    by (right; reflexivity).
  split; [exact H |]. split; [reflexivity |].
  apply (@register_user_without_password sample_encode sample_kdf
           sample_user_blank_password sample_salt "u9" 0%nat sample_db H eq_refl).
Defined.

(** Creating the sample product, then searching at (12, 77). *)
Lemma create_product_then_search_location_instance :
  ProductSchema.location sample_new_product
  = Some [("latitude", 12%R); ("longitude", 77%R); ("altitude", 900%R)]
  /\ exists products,
       get_products_by_location sample_str 12 77
         (snd (create_product sample_str sample_new_product "p2" 1 sample_db))
       = Ok (ReplyProducts products)
       /\ In [("name", VStr "wheat"); ("description", VStr "durum");
              ("price", VNum 25); ("quantity", VNum 3);
              ("location", VDict [("latitude", VNum 12); ("longitude", VNum 77)]);
              ("id", VStr "p2")] products.
Proof.
  split; [reflexivity |].
  apply (@create_product_then_search_location sample_str sample_new_product
           "p2" 1%nat sample_db
           [("latitude", 12%R); ("longitude", 77%R); ("altitude", 900%R)]
           12%R 77%R eq_refl eq_refl eq_refl).
Defined.
